(** * Fan cooling controller: a shallow embedding of [fan_cooling_control.ino]

  The sketch samples a temperature once per second and calls
  [controlFan], which decides a PWM duty for the fan transistor and the
  level of an auxiliary relay.  One global flag, [fanActive], survives
  between ticks and gives the controller its hysteresis.

  The temperature is a C++ [float]: it is modelled as an IEEE-754 binary32
  value with the Standard Library's [SpecFloat] operations (round to
  nearest even), so NaN, the infinities and rounding are those of the
  program.  Integers are [Z] with the wrap-around of their C++ type written
  out. *)

From Stdlib Require Import ZArith QArith Qround Bool List Lia String.
From Stdlib Require Import Floats.SpecFloat.
Import ListNotations.

Local Open Scope Z_scope.

(** ** Binary32 arithmetic, as the sketch uses it *)

Module F32.

Definition prec : Z := 24.
Definition emax : Z := 128.

Definition float := spec_float.

Definition sub : float -> float -> float := SFsub prec emax.
Definition mul : float -> float -> float := SFmul prec emax.
Definition add : float -> float -> float := SFadd prec emax.
Definition div : float -> float -> float := SFdiv prec emax.

(** [a >= b] and [a < b] of C++: false as soon as one side is NaN. *)
Definition ge (a b : float) : bool := SFleb b a.
Definition lt (a b : float) : bool := SFltb a b.
Definition le (a b : float) : bool := SFleb a b.

(** Conversion of an integer to [float] (exact for the small constants of
    the sketch, rounded otherwise). *)
Definition of_Z (z : Z) : float := binary_normalize prec emax z 0 false.

(** The rational a float stands for; NaN and the infinities have none and
    are sent to 0. *)
Definition to_Q (f : float) : Q :=
  match f with
  | S754_finite s m e =>
      if 0 <=? e then inject_Z (cond_Zopp s (Zpos m * 2 ^ e))
      else Qmake (cond_Zopp s (Zpos m)) (Z.to_pos (2 ^ (- e)))
  | _ => 0%Q
  end.

(** Truncation toward zero of a finite float, the mathematical part of the
    conversion [float -> long]. *)
Definition trunc (f : float) : Z :=
  match f with
  | S754_finite s m e =>
      cond_Zopp s (if 0 <=? e then Zpos m * 2 ^ e else Zpos m / 2 ^ (- e))
  | _ => 0
  end.

End F32.

(** ** Fixed-width integers *)

(** Two's-complement wrap of [z] into [w] bits. *)
Definition wrap (w : Z) (z : Z) : Z :=
  (z + 2 ^ (w - 1)) mod 2 ^ w - 2 ^ (w - 1).

(** [long] is 32 bits and [int] 16 bits on the AVR boards the sketch targets
    (pins [A0], [D9], [D10]). *)
Definition wrap_long : Z -> Z := wrap 32.
Definition wrap_int : Z -> Z := wrap 16.

(** [(long) f]: truncation toward zero.  Outside the range of [long] the
    conversion is undefined in C++; the model wraps there, and
    [controlFan] never reaches that case (see [scaled_delta_range]). *)
Definition float_to_long (f : F32.float) : Z := wrap_long (F32.trunc f).

(** ** The Arduino core functions the sketch calls *)

Module Arduino.

(** [long map(long x, long in_min, long in_max, long out_min, long out_max)]
    of the Arduino core:
    [(x - in_min) * (out_max - out_min) / (in_max - in_min) + out_min],
    in [long] arithmetic; [/] truncates toward zero. *)
Definition map (x in_min in_max out_min out_max : Z) : Z :=
  wrap_long
    (Z.quot
       (wrap_long (wrap_long (x - in_min) * wrap_long (out_max - out_min)))
       (wrap_long (in_max - in_min))
     + out_min).

Inductive level : Type := LOW | HIGH.

Definition level_eqb (a b : level) : bool :=
  match a, b with
  | LOW, LOW | HIGH, HIGH => true
  | _, _ => false
  end.

End Arduino.

Import Arduino.

(** ** Constants of the sketch *)

Definition TEMP_FAN_ON : F32.float := F32.of_Z 85.
Definition TEMP_FAN_MAX : F32.float := F32.of_Z 95.
Definition TEMP_HYSTERESIS : F32.float := F32.of_Z 5.

Definition PWM_MIN : Z := 100.
Definition PWM_MAX : Z := 255.

(** ** State *)

(** What survives from one call of [controlFan] to the next: the global
    [fanActive] and the levels latched on the two output pins. *)
Record board : Type := mkBoard {
  fanActive : bool;      (* global [fanActive] *)
  relayPin : level;      (* last [digitalWrite(FAN_RELAY_PIN, _)] *)
  pwmPin : Z             (* last [analogWrite(FAN_PWM_PIN, _)] *)
  }.

Definition set_fanActive (b : bool) (s : board) : board :=
  mkBoard b (relayPin s) (pwmPin s).

Definition digitalWrite_FAN_RELAY_PIN (v : level) (s : board) : board :=
  mkBoard (fanActive s) v (pwmPin s).

Definition analogWrite_FAN_PWM_PIN (v : Z) (s : board) : board :=
  mkBoard (fanActive s) (relayPin s) v.

(** [setup]: the global initialiser [fanActive = false], then
    [analogWrite(FAN_PWM_PIN, 0)] and [digitalWrite(FAN_RELAY_PIN, LOW)]. *)
Definition setup : board :=
  digitalWrite_FAN_RELAY_PIN LOW
    (analogWrite_FAN_PWM_PIN 0 (mkBoard false LOW 0)).

(** ** [controlFan] *)

(** The proportional branch:
    [pwmValue = map(tempDelta * 10, 0, tempRange * 10, PWM_MIN, PWM_MAX)]. *)
Definition proportional_pwm (temp : F32.float) : Z :=
  let tempRange := F32.sub TEMP_FAN_MAX TEMP_FAN_ON in
  let tempDelta := F32.sub temp TEMP_FAN_ON in
  wrap_int
    (map (float_to_long (F32.mul tempDelta (F32.of_Z 10)))
         0
         (float_to_long (F32.mul tempRange (F32.of_Z 10)))
         PWM_MIN PWM_MAX).

Definition controlFan (temp : F32.float) (s : board) : board :=
  let pwmValue := 0 in
  if F32.ge temp TEMP_FAN_MAX then
    let pwmValue := PWM_MAX in
    let s := set_fanActive true s in
    let s := digitalWrite_FAN_RELAY_PIN HIGH s in
    analogWrite_FAN_PWM_PIN pwmValue s
  else if F32.ge temp TEMP_FAN_ON then
    let pwmValue := proportional_pwm temp in
    let s := set_fanActive true s in
    let s := digitalWrite_FAN_RELAY_PIN HIGH s in
    analogWrite_FAN_PWM_PIN pwmValue s
  else if F32.lt temp (F32.sub TEMP_FAN_ON TEMP_HYSTERESIS) then
    let pwmValue := 0 in
    let s := set_fanActive false s in
    let s := digitalWrite_FAN_RELAY_PIN LOW s in
    analogWrite_FAN_PWM_PIN pwmValue s
  else if fanActive s then
    let pwmValue := PWM_MIN in
    analogWrite_FAN_PWM_PIN pwmValue s
  else
    analogWrite_FAN_PWM_PIN pwmValue s.

(** The spec's [DriveCommand] of one call: the duty handed to
    [analogWrite] and the level of the relay pin when the call returns. *)
Definition drivePercent (temp : F32.float) (s : board) : Z :=
  pwmPin (controlFan temp s).

Definition relayOn (temp : F32.float) (s : board) : bool :=
  level_eqb (relayPin (controlFan temp s)) HIGH.

(** Successive ticks: the board after feeding a list of temperatures, and
    the duties written on the way. *)
Fixpoint run (temps : list F32.float) (s : board) : board :=
  match temps with
  | [] => s
  | t :: ts => run ts (controlFan t s)
  end.

Fixpoint drives (temps : list F32.float) (s : board) : list Z :=
  match temps with
  | [] => []
  | t :: ts => pwmPin (controlFan t s) :: drives ts (controlFan t s)
  end.

(** States the running sketch can be in at the top of [loop]: the one left
    by [setup], then one call of [controlFan] per tick, on whatever
    [readTemperature] returned. *)
Inductive reachable : board -> Prop :=
| reach_setup : reachable setup
| reach_tick : forall temp s, reachable s -> reachable (controlFan temp s).

(** * Definitions used to state and prove the claims *)

(** ** The relay follows [fanActive] *)

Definition coupled (s : board) : Prop :=
  relayPin s = if fanActive s then HIGH else LOW.

(** ** The interpolation, as the spec words it and as the sketch computes it *)

Local Open Scope Q_scope.

(** The spec's formula, over the rationals:
    [minDrive + (maxDrive - minDrive) * (temp - onThreshold)
                / (maxThreshold - onThreshold)]. *)
Definition linear_interpolation (temp : F32.float) : Q :=
  inject_Z PWM_MIN
  + inject_Z (PWM_MAX - PWM_MIN) * (F32.to_Q temp - F32.to_Q TEMP_FAN_ON)
    / (F32.to_Q TEMP_FAN_MAX - F32.to_Q TEMP_FAN_ON).

(** The same formula evaluated in binary32, as a C++ [float] expression. *)
Definition float_interpolation (temp : F32.float) : F32.float :=
  F32.add (F32.of_Z PWM_MIN)
    (F32.div
       (F32.mul (F32.of_Z (PWM_MAX - PWM_MIN)) (F32.sub temp TEMP_FAN_ON))
       (F32.sub TEMP_FAN_MAX TEMP_FAN_ON)).

(** What the sketch computes, in terms of the value of [temp]: tenths of a
    degree above the threshold, truncated, then an integer rule of three. *)
Definition truncated_interpolation (temp : F32.float) : Z :=
  (PWM_MIN
   + (PWM_MAX - PWM_MIN)
     * Qfloor (10 * (F32.to_Q temp - F32.to_Q TEMP_FAN_ON))
     / Qfloor (10 * (F32.to_Q TEMP_FAN_MAX - F32.to_Q TEMP_FAN_ON)))%Z.

Local Close Scope Q_scope.

(** ** Temperatures used in examples *)

(** 85.09375 = 85 + 3/32 degrees. *)
Definition temp_85_09375 : F32.float := S754_finite false 11153408 (-17).




(** ** A view of the float order *)

(** Where a float lies with respect to the binade [[64, 128)] of the
    thresholds. *)
Inductive binade_view : Type :=
| Below
| At (m : positive)
| Above
| Unordered.

Definition view (temp : F32.float) : binade_view :=
  match temp with
  | S754_nan => Unordered
  | S754_infinity s => if s then Below else Above
  | S754_zero _ => Below
  | S754_finite true _ _ => Below
  | S754_finite false m e =>
      match e ?= -17 with
      | Lt => Below
      | Eq => At m
      | Gt => Above
      end
  end.

(** * The rest of the sketch: sensor, status line, [loop] *)

(** ** [readTemperature] *)

(** The counts [analogRead] can return: the ADC has 10 bits. *)
Definition adc_counts : list Z := List.map Z.of_nat (List.seq 0 1024).

(** [readTemperature], as a function of the count [analogRead] returned:
    [voltage = rawValue * (5.0 / 1023.0)], [temperature = voltage * 30.0].
    On the AVR target [double] is binary32 as well, so the constant
    [5.0 / 1023.0] and both products are binary32 operations. *)
Definition readTemperature (rawValue : Z) : F32.float :=
  let voltage :=
    F32.mul (F32.of_Z rawValue) (F32.div (F32.of_Z 5) (F32.of_Z 1023)) in
  let temperature := F32.mul voltage (F32.of_Z 30) in
  temperature.

(** ** Globals of the whole sketch *)

(** The board together with the global [currentTemp]. *)
Record sketch : Type := mkSketch {
  pins : board;
  currentTemp : F32.float     (* global [currentTemp] *)
  }.

(** The globals as initialised ([currentTemp = 0.0]), after [setup]. *)
Definition sketch_setup : sketch := mkSketch setup (F32.of_Z 0).

(** ** [printStatus] *)

(** What goes out on the serial line, call by call. *)
Inductive serial_item : Type :=
| print_str (text : string)
| print_float (f : F32.float) (digits : Z)
| print_int (n : Z)
| println_str (text : string).

(** [printStatus]; [pwmRead] is what [analogRead(FAN_PWM_PIN)] returned.
    The percentage is [map(pwmRead, 0, 255, 0, 100)] stored in an [int]. *)
Definition printStatus (pwmRead : Z) (st : sketch) : list serial_item :=
  [print_str "Температура: "; print_float (currentTemp st) 1;
   print_str "°C | Вентилятор: "]
  ++ (if fanActive (pins st) then
        let pwmPercent := wrap_int (map pwmRead 0 255 0 100) in
        [print_str "ВКЛ ("; print_int pwmPercent; println_str "%)"]
      else
        [println_str "ВЫКЛ"]).

(** ** [loop] *)

(** One pass of [loop]: read the sensor, drive the fan, print the status.
    [rawValue] and [pwmRead] are the two ADC counts read on the way; the
    closing [delay(1000)] only spends time. *)
Definition loop (rawValue pwmRead : Z) (st : sketch)
  : sketch * list serial_item :=
  let currentTemp := readTemperature rawValue in
  let st := mkSketch (controlFan currentTemp (pins st)) currentTemp in
  (st, printStatus pwmRead st).

(** The sketch after a list of passes of [loop], one pair of ADC counts per
    pass. *)
Fixpoint loops (reads : list (Z * Z)) (st : sketch) : sketch :=
  match reads with
  | [] => st
  | (rawValue, pwmRead) :: rest => loops rest (fst (loop rawValue pwmRead st))
  end.

(** Every count with the temperature [readTemperature] makes of it. *)
Definition sensor_table : list (Z * F32.float) :=
  List.map (fun rawValue => (rawValue, readTemperature rawValue)) adc_counts.

(** The checks run over all counts: the temperature is a valid binary32
    number between 0 and 150; the order of two counts is the order of their
    temperatures; the count-to-branch table; the proportional duties. *)
Definition sensor_in_range (rawValue : Z) : bool :=
  valid_binary F32.prec F32.emax (readTemperature rawValue)
  && F32.ge (readTemperature rawValue) (F32.of_Z 0)
  && F32.le (readTemperature rawValue) (F32.of_Z 150).

Definition sensor_ordered (p1 p2 : Z * F32.float) : bool :=
  Bool.eqb (F32.lt (snd p1) (snd p2)) (fst p1 <? fst p2)
  && Bool.eqb (F32.le (snd p1) (snd p2)) (fst p1 <=? fst p2).

Definition in_proportional_counts (rawValue : Z) : bool :=
  implb ((580 <=? rawValue) && (rawValue <=? 647))
    ((PWM_MIN <=? proportional_pwm (readTemperature rawValue))
     && (proportional_pwm (readTemperature rawValue) <=? 251)).

(** ** The flag as a latch *)

(** What a temperature decides about [fanActive]: set from
    [TEMP_FAN_ON] up, cleared below [TEMP_FAN_ON - TEMP_HYSTERESIS],
    nothing in between (nor for NaN). *)
Definition decides (temp : F32.float) : option bool :=
  if F32.ge temp TEMP_FAN_ON then Some true
  else if F32.lt temp (F32.sub TEMP_FAN_ON TEMP_HYSTERESIS) then Some false
  else None.

Definition latch (active : bool) (temp : F32.float) : bool :=
  match decides temp with
  | Some b => b
  | None => active
  end.

(** The duty both hysteresis branches write. *)
Definition hold_pwm (s : board) : Z := if fanActive s then PWM_MIN else 0.

(** The order the views inherit from the floats. *)
Definition view_le (v1 v2 : binade_view) : Prop :=
  match v1, v2 with
  | Unordered, _ | _, Unordered => False
  | Below, _ => True
  | At m1, At m2 => Zpos m1 <= Zpos m2
  | At _, Above => True
  | Above, Above => True
  | _, _ => False
  end.

(** * Facts about binary32 operations that round nothing *)

Section ExactBinary32.

(** The sign of the number being rounded; it plays no part. *)
Variable s : bool.

Lemma digits2_size (p : positive) : digits2_pos p = Pos.size p.
Proof. induction p; simpl; congruence. Qed.

(** [digits2_pos p] is the number of bits of [p]:
    [2^(d-1) <= p < 2^d]. *)
Lemma digits_lower (p : positive) (j : Z) :
  0 <= j -> 2 ^ j <= Zpos p -> j < Zpos (digits2_pos p).
Proof.
  intros Hj Hp. rewrite digits2_size.
  destruct (Z.lt_ge_cases j (Zpos (Pos.size p))) as [H|H]; [exact H|].
  exfalso.
  pose proof (Pos.size_gt p) as Hgt.
  apply Pos2Z.pos_lt_pos in Hgt. rewrite Pos2Z.inj_pow in Hgt.
  assert (2 ^ Zpos (Pos.size p) <= 2 ^ j) by (apply Z.pow_le_mono_r; lia).
  lia.
Qed.

Lemma digits_upper (p : positive) (j : Z) :
  0 <= j -> Zpos p < 2 ^ j -> Zpos (digits2_pos p) <= j.
Proof.
  intros Hj Hp. rewrite digits2_size.
  destruct (Z.le_gt_cases (Zpos (Pos.size p)) j) as [H|H]; [exact H|].
  exfalso.
  pose proof (Pos.size_le p) as Hle.
  apply Pos2Z.pos_le_pos in Hle. rewrite Pos2Z.inj_pow in Hle.
  change (Zpos p~0) with (2 * Zpos p) in Hle.
  assert (2 ^ Z.succ j <= 2 ^ Zpos (Pos.size p))
    by (apply Z.pow_le_mono_r; lia).
  rewrite Z.pow_succ_r in * by lia. lia.
Qed.

Lemma Zpos_iter_xO (q n : positive) :
  Zpos (Pos.iter xO q n) = Zpos q * 2 ^ Zpos n.
Proof.
  induction n using Pos.peano_ind.
  - simpl. lia.
  - rewrite Pos.iter_succ, Pos2Z.inj_succ, Z.pow_succ_r by lia.
    rewrite Pos2Z.inj_xO, IHn. ring.
Qed.

Lemma digits_iter_xO (q n : positive) :
  digits2_pos (Pos.iter xO q n) = (digits2_pos q + n)%positive.
Proof.
  induction n using Pos.peano_ind.
  - simpl. lia.
  - rewrite Pos.iter_succ. simpl. rewrite IHn. lia.
Qed.

Lemma iter_pos_iter {A : Type} (f : A -> A) (n : positive) (x : A) :
  iter_pos f n x = Pos.iter f x n.
Proof.
  revert x. induction n; intros x; simpl.
  - rewrite !IHn, !Pos.iter_swap. reflexivity.
  - rewrite !IHn. reflexivity.
  - reflexivity.
Qed.

(** Shifting right by [n] a mantissa that ends in [n] zero bits loses
    nothing: the round and sticky bits stay clear. *)
Lemma shr_iter_xO (q n : positive) :
  iter_pos shr_1 n (Build_shr_record (Zpos (Pos.iter xO q n)) false false)
  = Build_shr_record (Zpos q) false false.
Proof.
  rewrite iter_pos_iter.
  induction n using Pos.peano_ind.
  - reflexivity.
  - rewrite !Pos.iter_succ, <- Pos.iter_swap.
    simpl. exact IHn.
Qed.

(** A mantissa of exactly [prec] bits at an exponent in range is already
    in normal form. *)
Lemma round_aux_normal (q : positive) (e : Z) :
  Zpos (digits2_pos q) = F32.prec ->
  -149 <= e <= 104 ->
  binary_round_aux F32.prec F32.emax s (Zpos q) e loc_Exact
  = S754_finite s q e.
Proof.
  intros Hd He.
  unfold binary_round_aux, shr_fexp, fexp, emin, Zdigits2.
  rewrite Hd. unfold F32.prec, F32.emax.
  replace (Z.max (24 + e - 24) (3 - 128 - 24) - e) with 0 by lia.
  cbn [shr shr_record_of_loc shr_m loc_of_shr_record round_nearest_even].
  rewrite Hd. unfold F32.prec.
  replace (Z.max (24 + e - 24) (3 - 128 - 24) - e) with 0 by lia.
  cbn [shr shr_m].
  replace (e <=? 128 - 24) with true by (symmetry; apply Z.leb_le; lia).
  reflexivity.
Qed.

(** The same with [n] trailing zero bits to drop first. *)
Lemma round_aux_shifted (q n : positive) (e : Z) :
  Zpos (digits2_pos q) = F32.prec ->
  -149 <= e + Zpos n <= 104 ->
  binary_round_aux F32.prec F32.emax s (Zpos (Pos.iter xO q n)) e loc_Exact
  = S754_finite s q (e + Zpos n).
Proof.
  intros Hd He.
  unfold binary_round_aux, shr_fexp, fexp, emin, Zdigits2.
  rewrite digits_iter_xO, Pos2Z.inj_add, Hd. unfold F32.prec, F32.emax.
  replace (Z.max (24 + Zpos n + e - 24) (3 - 128 - 24) - e)
    with (Zpos n) by lia.
  cbn [shr shr_record_of_loc].
  rewrite shr_iter_xO.
  cbn [shr_m loc_of_shr_record round_nearest_even].
  rewrite Hd. unfold F32.prec.
  replace (Z.max (24 + (e + Zpos n) - 24) (3 - 128 - 24) - (e + Zpos n))
    with 0 by lia.
  cbn [shr shr_m].
  replace (e + Zpos n <=? 128 - 24) with true
    by (symmetry; apply Z.leb_le; lia).
  reflexivity.
Qed.

(** Both lemmas at once, with the shift as an integer. *)
Lemma round_aux_exact (P q : positive) (n e : Z) :
  0 <= n ->
  Zpos P = Zpos q * 2 ^ n ->
  Zpos (digits2_pos q) = F32.prec ->
  -149 <= e + n <= 104 ->
  binary_round_aux F32.prec F32.emax s (Zpos P) e loc_Exact
  = S754_finite s q (e + n).
Proof.
  intros Hn HP Hd He. destruct n as [|n|n]; [| |lia].
  - replace P with q by lia. rewrite Z.add_0_r in *.
    now apply round_aux_normal.
  - rewrite <- Zpos_iter_xO in HP. injection HP as ->.
    now apply round_aux_shifted.
Qed.

(** Every positive integer below [2^24] has a 24-bit normal form. *)
Lemma normal_mantissa (k : positive) :
  Zpos k < 2 ^ 24 ->
  exists (q : positive) (n : Z),
    n = 24 - Zpos (digits2_pos k) /\ 0 <= n /\
    Zpos q = Zpos k * 2 ^ n /\ Zpos (digits2_pos q) = F32.prec.
Proof.
  intros Hk.
  assert (Hd : Zpos (digits2_pos k) <= 24) by (apply digits_upper; lia).
  destruct (24 - Zpos (digits2_pos k)) as [|n|n] eqn:En; [| |lia].
  - exists k, 0. unfold F32.prec. repeat split; lia.
  - exists (Pos.iter xO k n), (Zpos n).
    repeat split; try lia.
    + apply Zpos_iter_xO.
    + rewrite digits_iter_xO, Pos2Z.inj_add. unfold F32.prec. lia.
Qed.

(** Integer-to-float and float subtraction normalise through
    [binary_round]; on a mantissa that fits, nothing is rounded. *)
Lemma binary_round_exact (k q : positive) (n e : Z) :
  n = 24 - Zpos (digits2_pos k) ->
  0 <= n ->
  Zpos q = Zpos k * 2 ^ n ->
  Zpos (digits2_pos q) = F32.prec ->
  -149 <= e - n <= 104 ->
  binary_round F32.prec F32.emax s k e = S754_finite s q (e - n).
Proof.
  intros En Hn Hq Hd He.
  unfold binary_round, fexp, emin, shl_align.
  change F32.prec with 24. change F32.emax with 128.
  replace (Z.max (Zpos (digits2_pos k) + e - 24) (3 - 128 - 24) - e)
    with (- n) by lia.
  replace (Z.max (Zpos (digits2_pos k) + e - 24) (3 - 128 - 24))
    with (e - n) by lia.
  destruct n as [|n|n]; [| |lia]; cbn [Z.opp].
  - replace q with k in * by lia. rewrite Z.sub_0_r in *.
    now apply round_aux_normal.
  - rewrite <- Zpos_iter_xO in Hq. injection Hq as <-.
    now apply round_aux_normal.
Qed.

End ExactBinary32.


(** * The order on floats, seen from the thresholds *)

(** The three thresholds are binary32 numbers with exponent [-17]. *)
Lemma TEMP_FAN_ON_eq : TEMP_FAN_ON = S754_finite false 11141120 (-17).
Proof. reflexivity. Qed.

Lemma TEMP_FAN_MAX_eq : TEMP_FAN_MAX = S754_finite false 12451840 (-17).
Proof. reflexivity. Qed.

Lemma TEMP_FAN_OFF_eq :
  F32.sub TEMP_FAN_ON TEMP_HYSTERESIS = S754_finite false 10485760 (-17).
Proof. reflexivity. Qed.

Lemma ten_eq : F32.of_Z 10 = S754_finite false 10485760 (-20).
Proof. reflexivity. Qed.

Lemma ge_view (temp : F32.float) (c : positive) :
  F32.ge temp (S754_finite false c (-17))
  = match view temp with
    | Above => true
    | At m => Zpos c <=? Zpos m
    | _ => false
    end.
Proof.
  unfold F32.ge, SFleb.
  destruct temp as [s|s| |s m e]; try destruct s; cbn [SFcompare view];
    try reflexivity.
  rewrite (Z.compare_antisym e (-17)).
  destruct (e ?= -17); reflexivity.
Qed.

Lemma lt_view (temp : F32.float) (c : positive) :
  F32.lt temp (S754_finite false c (-17))
  = match view temp with
    | Below => true
    | At m => Zpos m <? Zpos c
    | _ => false
    end.
Proof.
  unfold F32.lt, SFltb.
  destruct temp as [s|s| |s m e]; try destruct s; cbn [SFcompare view];
    try reflexivity.
  destruct (e ?= -17); reflexivity.
Qed.

Lemma view_At (temp : F32.float) (m : positive) :
  view temp = At m -> temp = S754_finite false m (-17).
Proof.
  destruct temp as [s|s| |s m' e]; try destruct s; cbn [view];
    try discriminate.
  destruct (Z.compare_spec e (-17)); try discriminate.
  intros [= ->]. subst e. reflexivity.
Qed.



(** Rewrites every test of [controlFan] into a question on [view temp]. *)
Ltac thresholds :=
  rewrite ?TEMP_FAN_OFF_eq, ?TEMP_FAN_ON_eq, ?TEMP_FAN_MAX_eq in *;
  rewrite ?ge_view, ?lt_view in *.

(** The proportional band, [TEMP_FAN_ON <= temp < TEMP_FAN_MAX], holds
    exactly the floats [m * 2^-17] with [85 * 2^17 <= m < 95 * 2^17]. *)
Lemma proportional_band (temp : F32.float) :
  F32.ge temp TEMP_FAN_ON = true ->
  F32.lt temp TEMP_FAN_MAX = true ->
  exists m : positive,
    temp = S754_finite false m (-17) /\ 11141120 <= Zpos m < 12451840.
Proof.
  thresholds. intros Hon Hmax.
  destruct (view temp) as [|m| |] eqn:Hv; try discriminate.
  exists m. split; [now apply view_At|].
  apply Z.leb_le in Hon. apply Z.ltb_lt in Hmax. lia.
Qed.


(** Such floats are genuine binary32 numbers. *)
Lemma proportional_band_valid (m : positive) :
  11141120 <= Zpos m < 12451840 ->
  valid_binary F32.prec F32.emax (S754_finite false m (-17)) = true.
Proof.
  intros Hm.
  pose proof (digits_lower m 23 ltac:(lia)) as Hlo.
  pose proof (digits_upper m 24 ltac:(lia)) as Hhi.
  change (2 ^ 23) with 8388608 in Hlo. change (2 ^ 24) with 16777216 in Hhi.
  unfold valid_binary, bounded, canonical_mantissa, fexp, emin.
  replace (Zpos (digits2_pos m)) with 24 by lia. reflexivity.
Qed.

(** * The proportional branch computes exactly *)

(** [tempDelta * 10], truncated: with [temp = m * 2^-17] in the band, the
    subtraction and the product are exact in binary32, so the [long] handed
    to [map] is the integer part of [10 * (temp - 85)]. *)
Lemma scaled_delta (m : positive) :
  11141120 <= Zpos m < 12451840 ->
  F32.trunc
    (F32.mul (F32.sub (S754_finite false m (-17)) TEMP_FAN_ON) (F32.of_Z 10))
  = 10 * (Zpos m - 11141120) / 2 ^ 17.
Proof.
  intros Hm. rewrite TEMP_FAN_ON_eq, ten_eq.
  change (F32.sub (S754_finite false m (-17))
            (S754_finite false 11141120 (-17)))
    with (binary_normalize F32.prec F32.emax (Zpos m - 11141120) (-17) false).
  destruct (Zpos m - 11141120) as [|k|k] eqn:Ek; [reflexivity| |lia].
  cbn [binary_normalize].
  assert (Hk : Zpos k < 1310720) by lia.
  destruct (normal_mantissa k) as (q & n & En & Hn & Hq & Hd).
  { change (2 ^ 24) with 16777216. lia. }
  destruct (normal_mantissa (k * 10)) as (q2 & n2 & En2 & Hn2 & Hq2 & Hd2).
  { change (2 ^ 24) with 16777216. lia. }
  assert (Hn2' : n2 <= 20).
  { pose proof (digits_lower (k * 10) 3). change (2 ^ 3) with 8 in *. lia. }
  assert (Hn' : n <= 23) by lia.
  rewrite (binary_round_exact false k q n (-17)) by (assumption || lia).
  unfold F32.mul. cbn [SFmul xorb].
  rewrite (round_aux_exact false (q * 10485760) q2 (n + 20 - n2)); try lia;
    try assumption.
  - cbn [F32.trunc cond_Zopp].
    replace (0 <=? -17 - n + -20 + (n + 20 - n2)) with false
      by (symmetry; apply Z.leb_gt; lia).
    replace (- (-17 - n + -20 + (n + 20 - n2))) with (n2 + 17) by lia.
    rewrite Hq2, Pos2Z.inj_mul, Z.pow_add_r by lia.
    rewrite (Z.mul_comm (Zpos k) 10).
    rewrite (Z.mul_comm (2 ^ n2)), Z.div_mul_cancel_r; lia.
  - rewrite Pos2Z.inj_mul, Hq, Hq2, Pos2Z.inj_mul.
    change (Zpos 10485760) with (10 * 2 ^ 20).
    rewrite <- (Z.mul_assoc _ (2 ^ n2)), <- Z.pow_add_r by lia.
    replace (n2 + (n + 20 - n2)) with (n + 20) by lia.
    rewrite Z.pow_add_r by lia. ring.
Qed.

Lemma wrap_long_small (z : Z) :
  - 2147483648 <= z < 2147483648 -> wrap_long z = z.
Proof.
  intros Hz. unfold wrap_long, wrap.
  change (2 ^ (32 - 1)) with 2147483648. change (2 ^ 32) with 4294967296.
  rewrite Z.mod_small; lia.
Qed.

Lemma wrap_int_small (z : Z) : - 32768 <= z < 32768 -> wrap_int z = z.
Proof.
  intros Hz. unfold wrap_int, wrap.
  change (2 ^ (16 - 1)) with 32768. change (2 ^ 16) with 65536.
  rewrite Z.mod_small; lia.
Qed.

(** [tempRange * 10] is the float 100, hence the [long] 100. *)
Lemma scaled_range :
  float_to_long
    (F32.mul (F32.sub TEMP_FAN_MAX TEMP_FAN_ON) (F32.of_Z 10)) = 100.
Proof. reflexivity. Qed.

(** The first argument of [map] stays in [[0, 99]]: the conversion to
    [long] is always defined where the sketch performs it. *)
Lemma scaled_delta_range (m : positive) :
  11141120 <= Zpos m < 12451840 ->
  0 <= 10 * (Zpos m - 11141120) / 2 ^ 17 <= 99.
Proof.
  intros Hm. change (2 ^ 17) with 131072. split.
  - apply Z.div_pos; lia.
  - apply Z.lt_succ_r. apply Z.div_lt_upper_bound; lia.
Qed.

(** [map] on the arguments of the sketch, without any wrap-around. *)
Lemma map_pwm (x : Z) :
  0 <= x <= 99 ->
  wrap_int (map x 0 100 PWM_MIN PWM_MAX)
  = PWM_MIN + (PWM_MAX - PWM_MIN) * x / 100.
Proof.
  intros Hx. unfold map, PWM_MIN, PWM_MAX.
  rewrite Z.sub_0_r, (wrap_long_small x) by lia.
  rewrite (wrap_long_small (255 - 100)) by lia.
  rewrite (wrap_long_small (100 - 0)) by lia.
  rewrite (wrap_long_small (x * (255 - 100))) by lia.
  rewrite Z.quot_div_nonneg by lia.
  assert (0 <= x * (255 - 100) / (100 - 0) <= 153).
  { split; [apply Z.div_pos; lia|].
    apply Z.lt_succ_r. apply Z.div_lt_upper_bound; lia. }
  rewrite wrap_long_small by lia.
  rewrite wrap_int_small by lia.
  rewrite (Z.mul_comm x). change (100 - 0) with 100. lia.
Qed.

Lemma proportional_pwm_band (m : positive) :
  11141120 <= Zpos m < 12451840 ->
  proportional_pwm (S754_finite false m (-17))
  = PWM_MIN + (PWM_MAX - PWM_MIN) * (10 * (Zpos m - 11141120) / 2 ^ 17) / 100.
Proof.
  intros Hm. unfold proportional_pwm.
  rewrite scaled_range. unfold float_to_long at 1.
  rewrite scaled_delta by assumption.
  pose proof (scaled_delta_range m Hm).
  rewrite wrap_long_small by lia.
  now apply map_pwm.
Qed.

Lemma proportional_pwm_range (m : positive) :
  11141120 <= Zpos m < 12451840 ->
  PWM_MIN <= proportional_pwm (S754_finite false m (-17)) <= PWM_MAX - 2.
Proof.
  intros Hm. rewrite proportional_pwm_band by assumption.
  pose proof (scaled_delta_range m Hm) as Hx.
  set (x := 10 * (Zpos m - 11141120) / 2 ^ 17) in *.
  unfold PWM_MIN, PWM_MAX.
  assert (0 <= (255 - 100) * x / 100 <= 153).
  { split; [apply Z.div_pos; lia|].
    apply Z.lt_succ_r. apply Z.div_lt_upper_bound; lia. }
  lia.
Qed.

(** * The four branches of [controlFan] *)

Lemma controlFan_max (temp : F32.float) (s : board) :
  F32.ge temp TEMP_FAN_MAX = true ->
  controlFan temp s = mkBoard true HIGH PWM_MAX.
Proof. intros H. unfold controlFan. rewrite H. reflexivity. Qed.

Lemma controlFan_proportional (temp : F32.float) (s : board) :
  F32.ge temp TEMP_FAN_ON = true ->
  F32.lt temp TEMP_FAN_MAX = true ->
  controlFan temp s = mkBoard true HIGH (proportional_pwm temp).
Proof.
  intros Hon Hmax. unfold controlFan. rewrite Hon.
  thresholds. destruct (view temp) as [|m| |]; try discriminate.
  apply Z.ltb_lt in Hmax.
  destruct (Z.leb_spec 12451840 (Zpos m)); [lia|reflexivity].
Qed.


Lemma controlFan_off (temp : F32.float) (s : board) :
  F32.lt temp (F32.sub TEMP_FAN_ON TEMP_HYSTERESIS) = true ->
  controlFan temp s = mkBoard false LOW 0.
Proof.
  intros Hoff. unfold controlFan. rewrite Hoff.
  thresholds. destruct (view temp) as [|m| |]; try discriminate;
    try reflexivity.
  apply Z.ltb_lt in Hoff.
  destruct (Z.leb_spec 12451840 (Zpos m)); [lia|].
  destruct (Z.leb_spec 11141120 (Zpos m)); [lia|reflexivity].
Qed.

Lemma controlFan_hold (temp : F32.float) (s : board) :
  F32.ge temp (F32.sub TEMP_FAN_ON TEMP_HYSTERESIS) = true ->
  F32.lt temp TEMP_FAN_ON = true ->
  controlFan temp s
  = mkBoard (fanActive s) (relayPin s) (if fanActive s then PWM_MIN else 0).
Proof.
  intros Hoff Hon. unfold controlFan.
  thresholds. destruct (view temp) as [|m| |]; try discriminate.
  apply Z.leb_le in Hoff. apply Z.ltb_lt in Hon.
  destruct (Z.leb_spec 12451840 (Zpos m)); [lia|].
  destruct (Z.leb_spec 11141120 (Zpos m)); [lia|].
  destruct (Z.ltb_spec (Zpos m) 10485760); [lia|].
  destruct s as [[|] r p]; reflexivity.
Qed.

(** Every call takes one of the four branches; the last one also serves
    NaN, for which all three comparisons are false. *)
Lemma controlFan_cases (temp : F32.float) (s : board) :
  (F32.ge temp TEMP_FAN_MAX = true
   /\ controlFan temp s = mkBoard true HIGH PWM_MAX)
  \/ (F32.ge temp TEMP_FAN_ON = true /\ F32.lt temp TEMP_FAN_MAX = true
      /\ controlFan temp s = mkBoard true HIGH (proportional_pwm temp))
  \/ (F32.lt temp (F32.sub TEMP_FAN_ON TEMP_HYSTERESIS) = true
      /\ controlFan temp s = mkBoard false LOW 0)
  \/ controlFan temp s
     = mkBoard (fanActive s) (relayPin s)
         (if fanActive s then PWM_MIN else 0).
Proof.
  destruct (F32.ge temp TEMP_FAN_MAX) eqn:Hmax.
  { left. split; [reflexivity|]. now apply controlFan_max. }
  destruct (F32.ge temp TEMP_FAN_ON) eqn:Hon.
  { right; left.
    assert (Hlt : F32.lt temp TEMP_FAN_MAX = true).
    { thresholds. destruct (view temp) as [|m| |]; try discriminate.
      apply Z.leb_gt in Hmax. now apply Z.ltb_lt. }
    repeat split; try assumption. now apply controlFan_proportional. }
  destruct (F32.lt temp (F32.sub TEMP_FAN_ON TEMP_HYSTERESIS)) eqn:Hoff.
  { right; right; left. split; [reflexivity|]. now apply controlFan_off. }
  right; right; right.
  unfold controlFan. rewrite Hmax, Hon, Hoff.
  destruct s as [[|] r p]; reflexivity.
Qed.

(** ** The relay follows [fanActive] *)

Lemma controlFan_coupled (temp : F32.float) (s : board) :
  coupled s -> coupled (controlFan temp s).
Proof.
  intros Hs.
  destruct (controlFan_cases temp s) as [[_ ->]|[(_ & _ & ->)|[[_ ->]| ->]]];
    try reflexivity.
  exact Hs.
Qed.

Lemma reachable_coupled (s : board) : reachable s -> coupled s.
Proof.
  induction 1 as [|temp s _ IH].
  - reflexivity.
  - now apply controlFan_coupled.
Qed.

(** Two boards that agree on [fanActive] and on the relay pin are sent to
    the same board: the old duty is never read. *)
Lemma controlFan_depends (temp : F32.float) (s1 s2 : board) :
  fanActive s1 = fanActive s2 ->
  relayPin s1 = relayPin s2 ->
  controlFan temp s1 = controlFan temp s2.
Proof.
  intros Hf Hr. unfold controlFan.
  unfold analogWrite_FAN_PWM_PIN, digitalWrite_FAN_RELAY_PIN, set_fanActive.
  cbn [fanActive relayPin pwmPin]. rewrite Hf, Hr. reflexivity.
Qed.


(** * The interpolation: sketch against spec *)

(** Tenths of a degree above [TEMP_FAN_ON], truncated. *)
Lemma tenths_band (m : positive) :
  Qfloor (10 * (F32.to_Q (S754_finite false m (-17)) - F32.to_Q TEMP_FAN_ON))
  = 10 * (Zpos m - 11141120) / 2 ^ 17.
Proof.
  rewrite TEMP_FAN_ON_eq. cbn [F32.to_Q Z.leb Z.compare cond_Zopp Z.opp].
  change (Z.to_pos (2 ^ 17)) with 131072%positive.
  change (2 ^ 17) with 131072.
  unfold Qfloor, Qminus, Qplus, Qopp, Qmult. cbn [Qnum Qden].
  rewrite !Pos2Z.inj_mul. change (Z.pos 1) with 1.
  match goal with
  | |- ?num / ?den = _ =>
      replace num with (10 * (Zpos m - 11141120) * 131072) by ring;
      replace den with (131072 * 131072) by ring
  end.
  rewrite Z.div_mul_cancel_r by lia. reflexivity.
Qed.

Lemma truncated_interpolation_band (m : positive) :
  truncated_interpolation (S754_finite false m (-17))
  = PWM_MIN + (PWM_MAX - PWM_MIN) * (10 * (Zpos m - 11141120) / 2 ^ 17) / 100.
Proof.
  unfold truncated_interpolation. rewrite tenths_band.
  replace (Qfloor (10 * (F32.to_Q TEMP_FAN_MAX - F32.to_Q TEMP_FAN_ON)))
    with 100 by reflexivity.
  reflexivity.
Qed.

(** The exact interpolation at [temp = m * 2^-17], as one fraction. *)
Lemma linear_interpolation_band (m : positive) :
  (linear_interpolation (S754_finite false m (-17))
   == Qmake (131072000 + 155 * (Zpos m - 11141120)) 1310720)%Q.
Proof.
  unfold linear_interpolation, Qdiv.
  set (r := Qinv (F32.to_Q TEMP_FAN_MAX - F32.to_Q TEMP_FAN_ON)).
  vm_compute in r. subst r.
  rewrite TEMP_FAN_ON_eq. cbn [F32.to_Q Z.leb Z.compare cond_Zopp Z.opp].
  change (Z.to_pos (2 ^ 17)) with 131072%positive.
  unfold PWM_MIN, PWM_MAX. change (255 - 100) with 155.
  unfold Qeq, Qminus, Qplus, Qopp, Qmult, inject_Z. cbn [Qnum Qden].
  rewrite !Pos2Z.inj_mul. ring.
Qed.

(** The two truncations, in integers: with [k = (temp - 85) * 2^17], the
    duty above [PWM_MIN] is [y], the exact interpolation is
    [155 * k / 1310720]. *)
Lemma truncation_error_Z (k : Z) :
  0 <= k ->
  let y := 155 * (10 * k / 131072) / 100 in
  1310720 * y <= 155 * k < 1310720 * y + 3342336.
Proof.
  intros Hk y.
  set (x := 10 * k / 131072) in *.
  pose proof (Z.mul_div_le (10 * k) 131072 ltac:(lia)) as Hx1.
  pose proof (Z.mul_succ_div_gt (10 * k) 131072 ltac:(lia)) as Hx2.
  pose proof (Z.mul_div_le (155 * x) 100 ltac:(lia)) as Hy1.
  pose proof (Z.mul_succ_div_gt (155 * x) 100 ltac:(lia)) as Hy2.
  fold x in Hx1, Hx2. fold y in Hy1, Hy2. lia.
Qed.

(** The duty of the sketch never exceeds the exact interpolation and stays
    less than 2.55 below it. *)
Lemma truncation_error (m : positive) :
  11141120 <= Zpos m < 12451840 ->
  let d := PWM_MIN + (PWM_MAX - PWM_MIN)
                     * (10 * (Zpos m - 11141120) / 2 ^ 17) / 100 in
  (inject_Z d <= linear_interpolation (S754_finite false m (-17)))%Q
  /\ (linear_interpolation (S754_finite false m (-17)) - (51 # 20)
      < inject_Z d)%Q.
Proof.
  intros Hm d.
  pose proof (truncation_error_Z (Zpos m - 11141120) ltac:(lia)) as H.
  cbv zeta in H.
  assert (Hd : d = 100 + 155 * (10 * (Zpos m - 11141120) / 131072) / 100)
    by reflexivity.
  clearbody d.
  split.
  - rewrite linear_interpolation_band.
    unfold Qle. cbn [Qnum Qden inject_Z]. lia.
  - rewrite linear_interpolation_band.
    unfold Qlt, Qminus, Qplus, Qopp. cbn [Qnum Qden inject_Z].
    rewrite Pos2Z.inj_mul. lia.
Qed.

(** * The claims *)

(** C1 (as amended).  In the proportional band
    [TEMP_FAN_ON <= temp < TEMP_FAN_MAX], from any prior state, the call
    switches the relay on, sets [fanActive] and writes the duty
    [PWM_MIN + (PWM_MAX - PWM_MIN) * floor(10 * (temp - 85)) / 100] with an
    integer division: the scaled difference and the quotient are both
    truncated.  That duty is at most the exact linear interpolation and
    less than 2.55 below it. *)
Theorem C1_proportional_duty_truncated (temp : F32.float) (s : board) :
  F32.ge temp TEMP_FAN_ON = true ->
  F32.lt temp TEMP_FAN_MAX = true ->
  drivePercent temp s = truncated_interpolation temp
  /\ relayOn temp s = true
  /\ fanActive (controlFan temp s) = true
  /\ (inject_Z (drivePercent temp s) <= linear_interpolation temp)%Q
  /\ (linear_interpolation temp - (51 # 20)
      < inject_Z (drivePercent temp s))%Q.
Proof.
  intros Hon Hmax. unfold drivePercent, relayOn.
  rewrite (controlFan_proportional temp s Hon Hmax).
  cbn [pwmPin relayPin fanActive level_eqb].
  destruct (proportional_band temp Hon Hmax) as (m & -> & Hm).
  rewrite truncated_interpolation_band, proportional_pwm_band by assumption.
  repeat split; now apply truncation_error.
Qed.

Lemma C1_proportional_duty_truncated_witness :
  F32.ge (F32.of_Z 90) TEMP_FAN_ON = true
  /\ F32.lt (F32.of_Z 90) TEMP_FAN_MAX = true
  /\ drivePercent (F32.of_Z 90) setup = truncated_interpolation (F32.of_Z 90)
  /\ relayOn (F32.of_Z 90) setup = true
  /\ fanActive (controlFan (F32.of_Z 90) setup) = true
  /\ (inject_Z (drivePercent (F32.of_Z 90) setup)
      <= linear_interpolation (F32.of_Z 90))%Q
  /\ (linear_interpolation (F32.of_Z 90) - (51 # 20)
      < inject_Z (drivePercent (F32.of_Z 90) setup))%Q.
Proof.
  split; [reflexivity|]. split; [reflexivity|].
  apply (C1_proportional_duty_truncated (F32.of_Z 90) setup); reflexivity.
Defined.

(** C1 (as stated) fails at 85.09375 degrees: the sketch writes 100, the
    linear interpolation is 101.453125, and the same formula evaluated in
    [float] arithmetic truncates to 101 as well. *)
Lemma C1_duty_differs_from_interpolation :
  F32.ge temp_85_09375 TEMP_FAN_ON = true
  /\ F32.lt temp_85_09375 TEMP_FAN_MAX = true
  /\ drivePercent temp_85_09375 setup = 100
  /\ (linear_interpolation temp_85_09375 == 12986 # 128)%Q
  /\ F32.trunc (float_interpolation temp_85_09375) = 101
  /\ ~ (inject_Z (drivePercent temp_85_09375 setup)
        == linear_interpolation temp_85_09375)%Q.
Proof.
  repeat split; try reflexivity.
  intros H. vm_compute in H. discriminate H.
Qed.

(** C2.  In the hysteresis band [80 <= temp < 85], at any tick of the
    running sketch: if [fanActive] was true the duty is [PWM_MIN], the relay
    pin keeps its level, which is HIGH, and [fanActive] stays true; if it
    was false the duty is 0, the relay is LOW and [fanActive] stays
    false. *)
Theorem C2_hysteresis_band_holds (temp : F32.float) (s : board) :
  reachable s ->
  F32.ge temp (F32.sub TEMP_FAN_ON TEMP_HYSTERESIS) = true ->
  F32.lt temp TEMP_FAN_ON = true ->
  if fanActive s then
    drivePercent temp s = PWM_MIN
    /\ relayPin (controlFan temp s) = relayPin s
    /\ relayOn temp s = true
    /\ fanActive (controlFan temp s) = true
  else
    drivePercent temp s = 0
    /\ relayPin (controlFan temp s) = relayPin s
    /\ relayOn temp s = false
    /\ fanActive (controlFan temp s) = false.
Proof.
  intros Hs Hoff Hon. apply reachable_coupled in Hs.
  unfold drivePercent, relayOn. rewrite (controlFan_hold temp s Hoff Hon).
  unfold coupled in Hs. cbn [pwmPin relayPin fanActive]. rewrite Hs.
  destruct (fanActive s); repeat split.
Qed.

Lemma C2_hysteresis_band_holds_witness :
  reachable (controlFan (F32.of_Z 90) setup)
  /\ F32.ge (F32.of_Z 83) (F32.sub TEMP_FAN_ON TEMP_HYSTERESIS) = true
  /\ F32.lt (F32.of_Z 83) TEMP_FAN_ON = true
  /\ drivePercent (F32.of_Z 83) (controlFan (F32.of_Z 90) setup) = PWM_MIN
  /\ relayPin (controlFan (F32.of_Z 83) (controlFan (F32.of_Z 90) setup))
     = relayPin (controlFan (F32.of_Z 90) setup)
  /\ relayOn (F32.of_Z 83) (controlFan (F32.of_Z 90) setup) = true
  /\ fanActive (controlFan (F32.of_Z 83) (controlFan (F32.of_Z 90) setup))
     = true.
Proof.
  assert (Hs : reachable (controlFan (F32.of_Z 90) setup))
    by (apply reach_tick, reach_setup).
  split; [exact Hs|]. split; [reflexivity|]. split; [reflexivity|].
  exact (C2_hysteresis_band_holds (F32.of_Z 83)
           (controlFan (F32.of_Z 90) setup) Hs eq_refl eq_refl).
Defined.

(** C3.  After a call from any state the sketch can reach, [fanActive] is
    true exactly when the duty just written is non-zero; and two reachable
    states with the same [fanActive] are sent to the same state by the same
    temperature: nothing else is carried from tick to tick. *)
Theorem C3_fanActive_iff_duty_nonzero (temp : F32.float) (s : board) :
  reachable s ->
  (fanActive (controlFan temp s) = true <-> drivePercent temp s <> 0)
  /\ (forall s' : board,
        reachable s' -> fanActive s' = fanActive s ->
        controlFan temp s' = controlFan temp s).
Proof.
  intros Hs. split.
  - unfold drivePercent.
    destruct (controlFan_cases temp s)
      as [[_ ->]|[(Hon & Hmax & ->)|[[_ ->]| ->]]];
      cbn [fanActive pwmPin].
    + split; [discriminate|reflexivity].
    + destruct (proportional_band temp Hon Hmax) as (m & -> & Hm).
      pose proof (proportional_pwm_range m Hm). unfold PWM_MIN in *.
      split; [lia|reflexivity].
    + split; [discriminate|intros H; now elim H].
    + destruct (fanActive s).
      * split; [discriminate|reflexivity].
      * split; [discriminate|intros H; now elim H].
  - intros s' Hs' Hf. apply controlFan_depends; [exact Hf|].
    rewrite (reachable_coupled s Hs), (reachable_coupled s' Hs'), Hf.
    reflexivity.
Qed.

Lemma C3_fanActive_iff_duty_nonzero_witness :
  reachable setup
  /\ (fanActive (controlFan (F32.of_Z 90) setup) = true
      <-> drivePercent (F32.of_Z 90) setup <> 0)
  /\ (forall s' : board,
        reachable s' -> fanActive s' = fanActive setup ->
        controlFan (F32.of_Z 90) s' = controlFan (F32.of_Z 90) setup).
Proof.
  split; [exact reach_setup|].
  exact (C3_fanActive_iff_duty_nonzero (F32.of_Z 90) setup reach_setup).
Defined.

(** C4.  Whatever the temperature (NaN and the infinities included) and
    the prior state, the duty written is 0 or lies in
    [[PWM_MIN, PWM_MAX]]; so it is never negative and never above
    [PWM_MAX]. *)
Theorem C4_duty_in_range (temp : F32.float) (s : board) :
  0 <= drivePercent temp s <= PWM_MAX
  /\ (drivePercent temp s = 0
      \/ PWM_MIN <= drivePercent temp s <= PWM_MAX).
Proof.
  unfold drivePercent.
  destruct (controlFan_cases temp s)
    as [[_ ->]|[(Hon & Hmax & ->)|[[_ ->]| ->]]];
    cbn [pwmPin].
  - unfold PWM_MIN, PWM_MAX. lia.
  - destruct (proportional_band temp Hon Hmax) as (m & -> & Hm).
    pose proof (proportional_pwm_range m Hm).
    unfold PWM_MIN, PWM_MAX in *. lia.
  - unfold PWM_MIN, PWM_MAX. lia.
  - destruct (fanActive s); unfold PWM_MIN, PWM_MAX; lia.
Qed.




(** C6.  With the constants of the sketch (85, 95, 5, 100, 255) and the
    state left by [setup], the temperatures 70, 90, 96, 83, 78 give the
    duties 0, 177, 255, 100, 0: 177 is the interpolation at 90 degrees
    (177.5, truncated), 100 is written at 83 degrees because [fanActive] was true, and
    the last call leaves the fan off. *)
Theorem C6_scenario :
  TEMP_FAN_ON = F32.of_Z 85 /\ TEMP_FAN_MAX = F32.of_Z 95
  /\ TEMP_HYSTERESIS = F32.of_Z 5 /\ PWM_MIN = 100 /\ PWM_MAX = 255
  /\ fanActive setup = false
  /\ drives (List.map F32.of_Z [70; 90; 96; 83; 78]) setup
     = [0; 177; 255; 100; 0]
  /\ truncated_interpolation (F32.of_Z 90) = 177
  /\ Qfloor (linear_interpolation (F32.of_Z 90)) = 177
  /\ fanActive (run (List.map F32.of_Z [70; 90; 96]) setup) = true
  /\ fanActive (run (List.map F32.of_Z [70; 90; 96; 83; 78]) setup) = false
  /\ relayPin (run (List.map F32.of_Z [70; 90; 96; 83; 78]) setup) = LOW.
Proof. repeat split; reflexivity. Qed.

(** C7.  At or above [TEMP_FAN_MAX], from any prior state, the duty is
    [PWM_MAX], the relay is on and [fanActive] is set. *)
Theorem C7_full_speed (temp : F32.float) (s : board) :
  F32.ge temp TEMP_FAN_MAX = true ->
  drivePercent temp s = PWM_MAX
  /\ relayOn temp s = true
  /\ fanActive (controlFan temp s) = true.
Proof.
  intros Hmax. unfold drivePercent, relayOn.
  rewrite (controlFan_max temp s Hmax). repeat split.
Qed.

Lemma C7_full_speed_witness :
  F32.ge (F32.of_Z 96) TEMP_FAN_MAX = true
  /\ drivePercent (F32.of_Z 96) setup = PWM_MAX
  /\ relayOn (F32.of_Z 96) setup = true
  /\ fanActive (controlFan (F32.of_Z 96) setup) = true.
Proof.
  split; [reflexivity|].
  apply (C7_full_speed (F32.of_Z 96) setup). reflexivity.
Defined.

(** C8.  Below [TEMP_FAN_ON - TEMP_HYSTERESIS], from any prior state
    ([fanActive] true or false), the duty is 0, the relay is off and
    [fanActive] is cleared. *)
Theorem C8_fan_off (temp : F32.float) (s : board) :
  F32.lt temp (F32.sub TEMP_FAN_ON TEMP_HYSTERESIS) = true ->
  drivePercent temp s = 0
  /\ relayOn temp s = false
  /\ fanActive (controlFan temp s) = false.
Proof.
  intros Hoff. unfold drivePercent, relayOn.
  rewrite (controlFan_off temp s Hoff). repeat split.
Qed.

Lemma C8_fan_off_witness :
  F32.lt (F32.of_Z 70) (F32.sub TEMP_FAN_ON TEMP_HYSTERESIS) = true
  /\ drivePercent (F32.of_Z 70) (mkBoard true HIGH 255) = 0
  /\ relayOn (F32.of_Z 70) (mkBoard true HIGH 255) = false
  /\ fanActive (controlFan (F32.of_Z 70) (mkBoard true HIGH 255)) = false.
Proof.
  split; [reflexivity|].
  apply (C8_fan_off (F32.of_Z 70) (mkBoard true HIGH 255)). reflexivity.
Defined.





(** C10.  From the state left by [setup], after every call of
    [controlFan] the relay pin is HIGH exactly when [fanActive] is true;
    the two hysteresis branches, which do not write the pin, leave it as it
    was. *)
Theorem C10_relay_follows_fanActive (temp : F32.float) (s : board) :
  reachable s ->
  (relayPin (controlFan temp s) = HIGH
   <-> fanActive (controlFan temp s) = true)
  /\ (F32.ge temp (F32.sub TEMP_FAN_ON TEMP_HYSTERESIS) = true ->
      F32.lt temp TEMP_FAN_ON = true ->
      relayPin (controlFan temp s) = relayPin s).
Proof.
  intros Hs. split.
  - pose proof (reachable_coupled _ (reach_tick temp s Hs)) as Hc.
    unfold coupled in Hc. rewrite Hc.
    destruct (fanActive (controlFan temp s)); split;
      (reflexivity || discriminate).
  - intros Hoff Hon. rewrite (controlFan_hold temp s Hoff Hon). reflexivity.
Qed.

Lemma C10_relay_follows_fanActive_witness :
  reachable (controlFan (F32.of_Z 90) setup)
  /\ (relayPin (controlFan (F32.of_Z 83) (controlFan (F32.of_Z 90) setup))
      = HIGH
      <-> fanActive (controlFan (F32.of_Z 83) (controlFan (F32.of_Z 90) setup))
          = true)
  /\ relayPin (controlFan (F32.of_Z 83) (controlFan (F32.of_Z 90) setup))
     = relayPin (controlFan (F32.of_Z 90) setup).
Proof.
  assert (Hs : reachable (controlFan (F32.of_Z 90) setup))
    by (apply reach_tick, reach_setup).
  split; [exact Hs|].
  destruct (C10_relay_follows_fanActive (F32.of_Z 83)
              (controlFan (F32.of_Z 90) setup) Hs) as (Hiff & Hkeep).
  split; [exact Hiff|]. apply Hkeep; reflexivity.
Defined.

(** * Further properties of the sketch *)

(** ** The duty as a function of the view *)

Lemma lt_le (a b : F32.float) : F32.lt a b = true -> F32.le a b = true.
Proof.
  unfold F32.lt, F32.le, SFltb, SFleb.
  destruct (SFcompare a b) as [[| |]|]; (reflexivity || discriminate).
Qed.

(** [<=] on floats is carried to the views. *)
Lemma le_view (temp1 temp2 : F32.float) :
  F32.le temp1 temp2 = true -> view_le (view temp1) (view temp2).
Proof.
  unfold F32.le, SFleb.
  destruct temp1 as [z1|z1| |z1 m1 e1]; try destruct z1;
    destruct temp2 as [z2|z2| |z2 m2 e2]; try destruct z2;
    cbn [SFcompare view view_le]; try discriminate; try (intros _; exact I);
    try change (Pos.compare_cont Eq m1 m2) with (Zpos m1 ?= Zpos m2);
    repeat match goal with
           | |- context [?a ?= ?b] => destruct (Z.compare_spec a b)
           end;
    cbn [view_le]; try discriminate; try (intros _; exact I); try lia.
Qed.

Lemma view_band (m : positive) : view (S754_finite false m (-17)) = At m.
Proof. reflexivity. Qed.

(** The duty of one call, read off the view of the temperature. *)
Lemma drivePercent_view (temp : F32.float) (s : board) :
  drivePercent temp s
  = match view temp with
    | Below => 0
    | At m =>
        if 12451840 <=? Zpos m then PWM_MAX
        else if 11141120 <=? Zpos m then
               proportional_pwm (S754_finite false m (-17))
        else if Zpos m <? 10485760 then 0
        else hold_pwm s
    | Above => PWM_MAX
    | Unordered => hold_pwm s
    end.
Proof.
  unfold drivePercent, hold_pwm.
  destruct (view temp) as [|m| |] eqn:Hv.
  - rewrite controlFan_off; [reflexivity|]. thresholds. now rewrite Hv.
  - apply view_At in Hv. subst temp.
    unfold controlFan. thresholds. rewrite view_band.
    destruct (12451840 <=? Zpos m); [reflexivity|].
    destruct (11141120 <=? Zpos m); [reflexivity|].
    destruct (Zpos m <? 10485760); [reflexivity|].
    destruct s as [[|] r p]; reflexivity.
  - rewrite controlFan_max; [reflexivity|]. thresholds. now rewrite Hv.
  - unfold controlFan. thresholds. rewrite Hv.
    destruct s as [[|] r p]; reflexivity.
Qed.

Lemma proportional_pwm_mono (m1 m2 : positive) :
  11141120 <= Zpos m1 -> Zpos m1 <= Zpos m2 -> Zpos m2 < 12451840 ->
  proportional_pwm (S754_finite false m1 (-17))
  <= proportional_pwm (S754_finite false m2 (-17)).
Proof.
  intros H1 H12 H2. rewrite !proportional_pwm_band by lia.
  apply Z.add_le_mono_l. apply Z.div_le_mono; [lia|].
  apply Z.mul_le_mono_nonneg_l; [unfold PWM_MIN, PWM_MAX; lia|].
  apply Z.div_le_mono; [change (2 ^ 17) with 131072|]; lia.
Qed.

Lemma hold_pwm_range (s : board) : hold_pwm s = 0 \/ hold_pwm s = PWM_MIN.
Proof. unfold hold_pwm. destruct (fanActive s); [right|left]; reflexivity. Qed.

(** For one prior state, a higher temperature never gets a lower duty. *)
Lemma drivePercent_mono (temp1 temp2 : F32.float) (s : board) :
  F32.le temp1 temp2 = true ->
  drivePercent temp1 s <= drivePercent temp2 s.
Proof.
  intros Hle. apply le_view in Hle.
  rewrite !drivePercent_view.
  pose proof (hold_pwm_range s) as Hh.
  destruct (view temp1) as [|m1| |]; destruct (view temp2) as [|m2| |];
    cbn [view_le] in Hle; try contradiction;
    repeat match goal with
           | |- context [?a <=? ?b] => destruct (Z.leb_spec a b)
           | |- context [?a <? ?b] => destruct (Z.ltb_spec a b)
           end;
    try (pose proof (proportional_pwm_range m1 ltac:(lia)));
    try (pose proof (proportional_pwm_range m2 ltac:(lia)));
    try (pose proof (proportional_pwm_mono m1 m2 ltac:(lia) ltac:(lia)
                       ltac:(lia)));
    unfold PWM_MIN, PWM_MAX in *; lia.
Qed.

(** ** The flag is a set/reset latch *)

Lemma ge_max_ge_on (temp : F32.float) :
  F32.ge temp TEMP_FAN_MAX = true -> F32.ge temp TEMP_FAN_ON = true.
Proof.
  thresholds. destruct (view temp) as [|m| |]; try discriminate;
    try reflexivity.
  intros H. apply Z.leb_le in H. apply Z.leb_le. lia.
Qed.

Lemma ge_on_not_off (temp : F32.float) :
  F32.ge temp TEMP_FAN_ON = true ->
  F32.lt temp (F32.sub TEMP_FAN_ON TEMP_HYSTERESIS) = false.
Proof.
  thresholds. destruct (view temp) as [|m| |]; try discriminate;
    try reflexivity.
  intros H. apply Z.leb_le in H. apply Z.ltb_ge. lia.
Qed.

Lemma fanActive_latch (temp : F32.float) (s : board) :
  fanActive (controlFan temp s) = latch (fanActive s) temp.
Proof.
  unfold latch, decides.
  destruct (controlFan_cases temp s)
    as [[Hmax ->]|[(Hon & Hmax & ->)|[[Hoff ->]|Hhold]]].
  - now rewrite (ge_max_ge_on temp Hmax).
  - now rewrite Hon.
  - destruct (F32.ge temp TEMP_FAN_ON) eqn:Hon.
    + rewrite (ge_on_not_off temp Hon) in Hoff. discriminate.
    + now rewrite Hoff.
  - unfold controlFan in *.
    destruct (F32.ge temp TEMP_FAN_MAX) eqn:Hmax.
    { now rewrite (ge_max_ge_on temp Hmax). }
    destruct (F32.ge temp TEMP_FAN_ON);
      destruct (F32.lt temp (F32.sub TEMP_FAN_ON TEMP_HYSTERESIS));
      destruct s as [[|] r p]; reflexivity.
Qed.

(** When the temperature decides nothing, only the duty is written. *)
Lemma controlFan_undecided (temp : F32.float) (s : board) :
  decides temp = None ->
  controlFan temp s = mkBoard (fanActive s) (relayPin s) (hold_pwm s).
Proof.
  unfold decides, hold_pwm. intros H.
  destruct (F32.ge temp TEMP_FAN_MAX) eqn:Hmax.
  { rewrite (ge_max_ge_on temp Hmax) in H. discriminate. }
  unfold controlFan. rewrite Hmax.
  destruct (F32.ge temp TEMP_FAN_ON); [discriminate|].
  destruct (F32.lt temp (F32.sub TEMP_FAN_ON TEMP_HYSTERESIS));
    [discriminate|].
  destruct s as [[|] r p]; reflexivity.
Qed.

(** ** The sensor, count by count *)

Lemma adc_counts_In (z : Z) : 0 <= z <= 1023 -> In z adc_counts.
Proof.
  intros Hz. unfold adc_counts. apply in_map_iff.
  exists (Z.to_nat z). split; [lia|]. apply in_seq. lia.
Qed.

Lemma forall_adc_counts (P : Z -> bool) :
  forallb P adc_counts = true ->
  forall z : Z, 0 <= z <= 1023 -> P z = true.
Proof.
  intros H z Hz. rewrite forallb_forall in H. now apply H, adc_counts_In.
Qed.

Lemma sensor_table_In (z : Z) :
  0 <= z <= 1023 -> In (z, readTemperature z) sensor_table.
Proof.
  intros Hz. unfold sensor_table. apply in_map_iff.
  exists z. split; [reflexivity|]. now apply adc_counts_In.
Qed.

(** Checked on all 1024 x 1024 pairs of counts. *)
Lemma sensor_table_ordered :
  (let table := sensor_table in
   forallb (fun p1 => forallb (sensor_ordered p1) table) table) = true.
Proof. vm_compute. reflexivity. Qed.

Lemma readTemperature_order (raw1 raw2 : Z) :
  0 <= raw1 <= 1023 -> 0 <= raw2 <= 1023 ->
  F32.lt (readTemperature raw1) (readTemperature raw2) = (raw1 <? raw2)
  /\ F32.le (readTemperature raw1) (readTemperature raw2) = (raw1 <=? raw2).
Proof.
  intros H1 H2.
  pose proof sensor_table_ordered as Hall. cbv zeta in Hall.
  rewrite forallb_forall in Hall.
  specialize (Hall _ (sensor_table_In raw1 H1)).
  rewrite forallb_forall in Hall.
  specialize (Hall _ (sensor_table_In raw2 H2)).
  unfold sensor_ordered in Hall.
  apply andb_prop in Hall. destruct Hall as [Hlt Hle].
  apply Bool.eqb_prop in Hlt, Hle. split; assumption.
Qed.

Lemma sensor_range_checked : forallb sensor_in_range adc_counts = true.
Proof. vm_compute. reflexivity. Qed.

Lemma proportional_counts_checked :
  forallb in_proportional_counts adc_counts = true.
Proof. vm_compute. reflexivity. Qed.

Lemma implb_elim (a b : bool) : implb a b = true -> a = true -> b = true.
Proof. destruct a, b; auto. Qed.

(** The duty of the proportional branch on the counts that reach it. *)
Lemma proportional_counts (rawValue : Z) :
  580 <= rawValue <= 647 ->
  PWM_MIN <= proportional_pwm (readTemperature rawValue) <= 251.
Proof.
  intros Hr.
  pose proof (forall_adc_counts _ proportional_counts_checked rawValue
                ltac:(lia)) as H.
  unfold in_proportional_counts in H.
  assert (Hc : (580 <=? rawValue) && (rawValue <=? 647) = true)
    by (apply andb_true_intro; split; apply Z.leb_le; lia).
  pose proof (implb_elim _ _ H Hc) as H'.
  apply andb_prop in H'. destruct H' as [Hlo Hhi].
  apply Z.leb_le in Hlo, Hhi. split; assumption.
Qed.

(** The three tests of [controlFan], in ADC counts. *)
Lemma thresholds_in_counts (rawValue : Z) :
  0 <= rawValue <= 1023 ->
  F32.ge (readTemperature rawValue) TEMP_FAN_MAX = (648 <=? rawValue)
  /\ F32.ge (readTemperature rawValue) TEMP_FAN_ON = (580 <=? rawValue)
  /\ F32.lt (readTemperature rawValue) (F32.sub TEMP_FAN_ON TEMP_HYSTERESIS)
     = (rawValue <=? 545).
Proof.
  intros Hr.
  assert (Hall : forallb
            (fun r =>
               Bool.eqb (F32.ge (readTemperature r) TEMP_FAN_MAX) (648 <=? r)
               && Bool.eqb (F32.ge (readTemperature r) TEMP_FAN_ON) (580 <=? r)
               && Bool.eqb
                    (F32.lt (readTemperature r)
                       (F32.sub TEMP_FAN_ON TEMP_HYSTERESIS))
                    (r <=? 545))
            adc_counts = true) by (vm_compute; reflexivity).
  pose proof (forall_adc_counts _ Hall rawValue Hr) as H.
  apply andb_prop in H. destruct H as [H H3].
  apply andb_prop in H. destruct H as [H1 H2].
  apply Bool.eqb_prop in H1, H2, H3. auto.
Qed.


(** ** One call, whatever the prior state *)

(** Either the fan is on with a duty in [[PWM_MIN, PWM_MAX]], or it is off
    with duty 0. *)
Lemma controlFan_on_or_off (temp : F32.float) (s : board) :
  (fanActive (controlFan temp s) = true
   /\ PWM_MIN <= pwmPin (controlFan temp s) <= PWM_MAX)
  \/ (fanActive (controlFan temp s) = false
      /\ pwmPin (controlFan temp s) = 0).
Proof.
  destruct (controlFan_cases temp s)
    as [[_ ->]|[(Hon & Hmax & ->)|[[_ ->]| ->]]]; cbn [fanActive pwmPin].
  - left. unfold PWM_MIN, PWM_MAX. split; [reflexivity|lia].
  - left. destruct (proportional_band temp Hon Hmax) as (m & -> & Hm).
    pose proof (proportional_pwm_range m Hm). split; [reflexivity|lia].
  - right. split; reflexivity.
  - destruct (fanActive s); [left|right]; unfold PWM_MIN, PWM_MAX;
      (split; [reflexivity|lia]) || (split; reflexivity).
Qed.

Lemma pins_loop (rawValue pwmRead : Z) (st : sketch) :
  pins (fst (loop rawValue pwmRead st))
  = controlFan (readTemperature rawValue) (pins st).
Proof. reflexivity. Qed.

Lemma currentTemp_loop (rawValue pwmRead : Z) (st : sketch) :
  currentTemp (fst (loop rawValue pwmRead st)) = readTemperature rawValue.
Proof. reflexivity. Qed.

Lemma loops_reachable (reads : list (Z * Z)) (st : sketch) :
  reachable (pins st) -> reachable (pins (loops reads st)).
Proof.
  revert st. induction reads as [|[r p] reads IH]; intros st Hst.
  - exact Hst.
  - cbn [loops]. apply IH. rewrite pins_loop. now apply reach_tick.
Qed.

(** In every reachable state the duty is 0 exactly when the fan is off. *)
Lemma reachable_on_or_off (s : board) :
  reachable s ->
  (fanActive s = true /\ PWM_MIN <= pwmPin s <= PWM_MAX)
  \/ (fanActive s = false /\ pwmPin s = 0).
Proof.
  destruct 1 as [|temp s _].
  - right. split; reflexivity.
  - apply controlFan_on_or_off.
Qed.

(** [map(pwmRead, 0, 255, 0, 100)] on a 10-bit count: the product goes up
    to 102300, beyond an [int] but within the [long] that [map] uses. *)
Lemma map_percent (pwmRead : Z) :
  0 <= pwmRead <= 1023 ->
  wrap_int (map pwmRead 0 255 0 100) = pwmRead * 100 / 255.
Proof.
  intros Hr. unfold map.
  rewrite Z.sub_0_r, (wrap_long_small pwmRead) by lia.
  rewrite (wrap_long_small (100 - 0)) by lia.
  rewrite (wrap_long_small (255 - 0)) by lia.
  rewrite (wrap_long_small (pwmRead * (100 - 0))) by lia.
  rewrite Z.quot_div_nonneg by lia.
  change (100 - 0) with 100. change (255 - 0) with 255.
  assert (0 <= pwmRead * 100 / 255 <= 401).
  { split; [apply Z.div_pos; lia|].
    apply Z.lt_succ_r. apply Z.div_lt_upper_bound; lia. }
  rewrite Z.add_0_r, wrap_long_small by lia.
  apply wrap_int_small. lia.
Qed.

(** * Properties beyond the claims *)

(** X1.  [readTemperature]: every 10-bit count gives a valid binary32
    temperature (never NaN nor infinite) between 0 and 150 degrees; count 0
    gives exactly 0.0 and count 1023 exactly 150.0. *)
Theorem X1_readTemperature_range (rawValue : Z) :
  0 <= rawValue <= 1023 ->
  valid_binary F32.prec F32.emax (readTemperature rawValue) = true
  /\ F32.ge (readTemperature rawValue) (F32.of_Z 0) = true
  /\ F32.le (readTemperature rawValue) (F32.of_Z 150) = true
  /\ readTemperature 0 = F32.of_Z 0
  /\ readTemperature 1023 = F32.of_Z 150.
Proof.
  intros Hr.
  pose proof (forall_adc_counts _ sensor_range_checked rawValue Hr) as H.
  unfold sensor_in_range in H.
  apply andb_prop in H. destruct H as [H Hle].
  apply andb_prop in H. destruct H as [Hvalid Hge].
  split; [exact Hvalid|]. split; [exact Hge|]. split; [exact Hle|].
  split; vm_compute; reflexivity.
Qed.

Lemma X1_readTemperature_range_witness :
  0 <= 512 <= 1023
  /\ valid_binary F32.prec F32.emax (readTemperature 512) = true
  /\ F32.ge (readTemperature 512) (F32.of_Z 0) = true
  /\ F32.le (readTemperature 512) (F32.of_Z 150) = true
  /\ readTemperature 0 = F32.of_Z 0
  /\ readTemperature 1023 = F32.of_Z 150.
Proof.
  split; [lia|]. apply (X1_readTemperature_range 512). lia.
Defined.

(** X2.  [readTemperature] is strictly increasing in the count and reflects
    the order: on 10-bit counts, [raw1 < raw2] exactly when the first
    temperature is below the second, and likewise for [<=]. *)
Theorem X2_readTemperature_strictly_increasing (raw1 raw2 : Z) :
  0 <= raw1 <= 1023 -> 0 <= raw2 <= 1023 ->
  (raw1 < raw2
   <-> F32.lt (readTemperature raw1) (readTemperature raw2) = true)
  /\ (raw1 <= raw2
      <-> F32.le (readTemperature raw1) (readTemperature raw2) = true).
Proof.
  intros H1 H2.
  destruct (readTemperature_order raw1 raw2 H1 H2) as [-> ->].
  split; [symmetry; apply Z.ltb_lt|symmetry; apply Z.leb_le].
Qed.

Lemma X2_readTemperature_strictly_increasing_witness :
  0 <= 579 <= 1023 /\ 0 <= 580 <= 1023
  /\ (579 < 580
      <-> F32.lt (readTemperature 579) (readTemperature 580) = true)
  /\ (579 <= 580
      <-> F32.le (readTemperature 579) (readTemperature 580) = true).
Proof.
  split; [lia|]. split; [lia|].
  apply (X2_readTemperature_strictly_increasing 579 580); lia.
Defined.

(** X3.  One pass of [loop], in ADC counts: the fan runs at full speed
    from count 648 up, proportionally from 580 to 647, is switched off up
    to count 545, and from 546 to 579 only the duty is rewritten
    ([PWM_MIN] if the fan was on, 0 otherwise); [currentTemp] holds the
    converted reading. *)
Theorem X3_loop_thresholds_in_counts
  (rawValue pwmRead : Z) (st : sketch) :
  0 <= rawValue <= 1023 ->
  pins (fst (loop rawValue pwmRead st))
  = (if 648 <=? rawValue then mkBoard true HIGH PWM_MAX
     else if 580 <=? rawValue then
            mkBoard true HIGH (proportional_pwm (readTemperature rawValue))
     else if rawValue <=? 545 then mkBoard false LOW 0
     else mkBoard (fanActive (pins st)) (relayPin (pins st))
            (hold_pwm (pins st)))
  /\ currentTemp (fst (loop rawValue pwmRead st)) = readTemperature rawValue.
Proof.
  intros Hr. rewrite pins_loop, currentTemp_loop. split; [|reflexivity].
  destruct (thresholds_in_counts rawValue Hr) as (Hmax & Hon & Hoff).
  destruct (648 <=? rawValue).
  { now apply controlFan_max. }
  destruct (580 <=? rawValue).
  { unfold controlFan. rewrite Hmax, Hon. reflexivity. }
  destruct (rawValue <=? 545).
  { now apply controlFan_off. }
  apply controlFan_undecided. unfold decides. now rewrite Hon, Hoff.
Qed.

Lemma X3_loop_thresholds_in_counts_witness :
  0 <= 600 <= 1023
  /\ pins (fst (loop 600 0 sketch_setup))
     = mkBoard true HIGH (proportional_pwm (readTemperature 600))
  /\ currentTemp (fst (loop 600 0 sketch_setup)) = readTemperature 600.
Proof.
  split; [lia|].
  exact (X3_loop_thresholds_in_counts 600 0 sketch_setup ltac:(lia)).
Defined.

(** X4.  Through the sensor the duty written by a pass of [loop] is 0,
    255, or between 100 and 251: on the counts 580..647 of the proportional
    branch it stays within [[PWM_MIN, 251]], so 252..254 never occur. *)
Theorem X4_loop_duty_values (rawValue pwmRead : Z) (st : sketch) :
  0 <= rawValue <= 1023 ->
  pwmPin (pins (fst (loop rawValue pwmRead st))) = 0
  \/ PWM_MIN <= pwmPin (pins (fst (loop rawValue pwmRead st))) <= 251
  \/ pwmPin (pins (fst (loop rawValue pwmRead st))) = PWM_MAX.
Proof.
  intros Hr. rewrite pins_loop.
  destruct (thresholds_in_counts rawValue Hr) as (Hmax & Hon & Hoff).
  destruct (Z.leb_spec 648 rawValue) as [H648|H648].
  { right; right. now rewrite controlFan_max. }
  destruct (Z.leb_spec 580 rawValue) as [H580|H580].
  { right; left.
    assert (Hlt : F32.lt (readTemperature rawValue) TEMP_FAN_MAX = true).
    { revert Hmax Hon. thresholds.
      destruct (view (readTemperature rawValue)) as [|m| |];
        try discriminate.
      intros Hmax _. apply Z.leb_gt in Hmax. now apply Z.ltb_lt. }
    rewrite (controlFan_proportional _ _ Hon Hlt). cbn [pwmPin].
    apply proportional_counts. lia. }
  destruct (Z.leb_spec rawValue 545) as [H545|H545].
  { left. now rewrite controlFan_off. }
  rewrite controlFan_undecided by (unfold decides; now rewrite Hon, Hoff).
  cbn [pwmPin]. destruct (hold_pwm_range (pins st)) as [-> | ->].
  - left. reflexivity.
  - right; left. unfold PWM_MIN. lia.
Qed.

Lemma X4_loop_duty_values_witness :
  0 <= 647 <= 1023
  /\ (pwmPin (pins (fst (loop 647 0 sketch_setup))) = 0
      \/ PWM_MIN <= pwmPin (pins (fst (loop 647 0 sketch_setup))) <= 251
      \/ pwmPin (pins (fst (loop 647 0 sketch_setup))) = PWM_MAX).
Proof.
  split; [lia|]. apply (X4_loop_duty_values 647 0 sketch_setup). lia.
Defined.

(** X5.  For one prior state, [controlFan] is monotone over the whole
    float order (not only on the proportional band): if
    [temp1 <= temp2], the duty for [temp1] is at most the duty for
    [temp2], and if [temp1] leaves the fan on, so does [temp2]. *)
Theorem X5_controlFan_monotone (temp1 temp2 : F32.float) (s : board) :
  F32.le temp1 temp2 = true ->
  drivePercent temp1 s <= drivePercent temp2 s
  /\ (fanActive (controlFan temp1 s) = true ->
      fanActive (controlFan temp2 s) = true).
Proof.
  intros Hle. pose proof (drivePercent_mono temp1 temp2 s Hle) as Hmono.
  split; [exact Hmono|].
  unfold drivePercent in Hmono. intros H1.
  destruct (controlFan_on_or_off temp1 s) as [[_ Hd1]|[Hf1 _]];
    [|congruence].
  destruct (controlFan_on_or_off temp2 s) as [[Hf2 _]|[_ Hd2]];
    [exact Hf2|].
  unfold PWM_MIN in Hd1. lia.
Qed.

Lemma X5_controlFan_monotone_witness :
  F32.le (F32.of_Z 83) (F32.of_Z 90) = true
  /\ drivePercent (F32.of_Z 83) (mkBoard true HIGH 255)
     <= drivePercent (F32.of_Z 90) (mkBoard true HIGH 255)
  /\ (fanActive (controlFan (F32.of_Z 83) (mkBoard true HIGH 255)) = true ->
      fanActive (controlFan (F32.of_Z 90) (mkBoard true HIGH 255)) = true).
Proof.
  split; [reflexivity|].
  apply (X5_controlFan_monotone (F32.of_Z 83) (F32.of_Z 90)
           (mkBoard true HIGH 255)).
  reflexivity.
Defined.

(** X6.  Sensor and controller together: from one state, a higher ADC
    count never gives a lower duty. *)
Theorem X6_loop_duty_monotone_in_count
  (raw1 raw2 pwmRead1 pwmRead2 : Z) (st : sketch) :
  0 <= raw1 -> raw1 <= raw2 -> raw2 <= 1023 ->
  pwmPin (pins (fst (loop raw1 pwmRead1 st)))
  <= pwmPin (pins (fst (loop raw2 pwmRead2 st))).
Proof.
  intros H1 H12 H2. rewrite !pins_loop.
  apply (drivePercent_mono (readTemperature raw1) (readTemperature raw2)).
  destruct (readTemperature_order raw1 raw2 ltac:(lia) ltac:(lia))
    as [_ ->].
  apply Z.leb_le. exact H12.
Qed.

Lemma X6_loop_duty_monotone_in_count_witness :
  0 <= 560 /\ 560 <= 600 /\ 600 <= 1023
  /\ pwmPin (pins (fst (loop 560 0 sketch_setup)))
     <= pwmPin (pins (fst (loop 600 0 sketch_setup))).
Proof.
  split; [lia|]. split; [lia|]. split; [lia|].
  apply (X6_loop_duty_monotone_in_count 560 600 0 0 sketch_setup); lia.
Defined.

(** X7.  [controlFan] is idempotent: a second call with the same
    temperature changes nothing. *)
Theorem X7_controlFan_idempotent (temp : F32.float) (s : board) :
  controlFan temp (controlFan temp s) = controlFan temp s.
Proof.
  unfold controlFan.
  destruct (F32.ge temp TEMP_FAN_MAX); [reflexivity|].
  destruct (F32.ge temp TEMP_FAN_ON); [reflexivity|].
  destruct (F32.lt temp (F32.sub TEMP_FAN_ON TEMP_HYSTERESIS));
    [reflexivity|].
  destruct s as [[|] r p]; reflexivity.
Qed.

(** X8.  No chatter: while every temperature is neither at or above
    [TEMP_FAN_ON] nor below [TEMP_FAN_ON - TEMP_HYSTERESIS] (the hysteresis
    band, or NaN), [fanActive] and the relay pin keep their values and
    every duty written is [PWM_MIN] if the fan was on, 0 if it was off. *)
Theorem X8_hysteresis_band_changes_nothing
  (temps : list F32.float) (s : board) :
  Forall (fun temp =>
            F32.ge temp TEMP_FAN_ON = false
            /\ F32.lt temp (F32.sub TEMP_FAN_ON TEMP_HYSTERESIS) = false)
         temps ->
  fanActive (run temps s) = fanActive s
  /\ relayPin (run temps s) = relayPin s
  /\ Forall (fun duty => duty = hold_pwm s) (drives temps s).
Proof.
  intros Hall. revert s.
  induction Hall as [|temp temps [Hon Hoff] _ IH]; intros s.
  - repeat split. constructor.
  - assert (Hstep : controlFan temp s
                    = mkBoard (fanActive s) (relayPin s) (hold_pwm s)).
    { apply controlFan_undecided. unfold decides. now rewrite Hon, Hoff. }
    cbn [run drives]. rewrite Hstep.
    destruct (IH (mkBoard (fanActive s) (relayPin s) (hold_pwm s)))
      as (Hf & Hr & Hd).
    repeat split; try assumption.
    constructor; [reflexivity|exact Hd].
Qed.

Lemma X8_hysteresis_band_changes_nothing_witness :
  Forall (fun temp =>
            F32.ge temp TEMP_FAN_ON = false
            /\ F32.lt temp (F32.sub TEMP_FAN_ON TEMP_HYSTERESIS) = false)
         [F32.of_Z 83; S754_nan; F32.of_Z 80]
  /\ fanActive (run [F32.of_Z 83; S754_nan; F32.of_Z 80]
                  (mkBoard true HIGH 177)) = true
  /\ relayPin (run [F32.of_Z 83; S754_nan; F32.of_Z 80]
                 (mkBoard true HIGH 177)) = HIGH
  /\ Forall (fun duty => duty = hold_pwm (mkBoard true HIGH 177))
       (drives [F32.of_Z 83; S754_nan; F32.of_Z 80] (mkBoard true HIGH 177)).
Proof.
  assert (Hall : Forall (fun temp =>
            F32.ge temp TEMP_FAN_ON = false
            /\ F32.lt temp (F32.sub TEMP_FAN_ON TEMP_HYSTERESIS) = false)
         [F32.of_Z 83; S754_nan; F32.of_Z 80])
    by (repeat constructor).
  split; [exact Hall|].
  exact (X8_hysteresis_band_changes_nothing
           [F32.of_Z 83; S754_nan; F32.of_Z 80] (mkBoard true HIGH 177) Hall).
Defined.

(** X9.  Once on, the fan stays on until a temperature falls below
    [TEMP_FAN_ON - TEMP_HYSTERESIS]: if no temperature of the run is below
    that threshold and [fanActive] was true, it is still true at the end,
    every duty written is at least [PWM_MIN], and a relay that was HIGH
    stays HIGH. *)
Theorem X9_fan_stays_on (temps : list F32.float) (s : board) :
  Forall (fun temp =>
            F32.lt temp (F32.sub TEMP_FAN_ON TEMP_HYSTERESIS) = false)
         temps ->
  fanActive s = true ->
  fanActive (run temps s) = true
  /\ Forall (fun duty => PWM_MIN <= duty) (drives temps s)
  /\ (relayPin s = HIGH -> relayPin (run temps s) = HIGH).
Proof.
  intros Hall. revert s.
  induction Hall as [|temp temps Hoff _ IH]; intros s Hs.
  - split; [exact Hs|]. split; [constructor|auto].
  - cbn [run drives].
    assert (Hstep : fanActive (controlFan temp s) = true
                    /\ PWM_MIN <= pwmPin (controlFan temp s)
                    /\ (relayPin s = HIGH ->
                        relayPin (controlFan temp s) = HIGH)).
    { destruct (controlFan_cases temp s)
        as [[_ ->]|[(Hon & Hmax & ->)|[[Hoff' _]| ->]]];
        cbn [fanActive pwmPin relayPin].
      - unfold PWM_MIN, PWM_MAX. repeat split; lia.
      - destruct (proportional_band temp Hon Hmax) as (m & -> & Hm).
        pose proof (proportional_pwm_range m Hm). repeat split; lia.
      - congruence.
      - rewrite Hs. repeat split; [lia|auto]. }
    destruct Hstep as (Hf & Hd & Hr).
    destruct (IH (controlFan temp s) Hf) as (Hf' & Hd' & Hr').
    split; [exact Hf'|]. split; [constructor; assumption|auto].
Qed.

Lemma X9_fan_stays_on_witness :
  Forall (fun temp =>
            F32.lt temp (F32.sub TEMP_FAN_ON TEMP_HYSTERESIS) = false)
         [F32.of_Z 84; F32.of_Z 80; F32.of_Z 96; F32.of_Z 81]
  /\ fanActive (controlFan (F32.of_Z 90) setup) = true
  /\ fanActive (run [F32.of_Z 84; F32.of_Z 80; F32.of_Z 96; F32.of_Z 81]
                  (controlFan (F32.of_Z 90) setup)) = true
  /\ Forall (fun duty => PWM_MIN <= duty)
       (drives [F32.of_Z 84; F32.of_Z 80; F32.of_Z 96; F32.of_Z 81]
          (controlFan (F32.of_Z 90) setup))
  /\ (relayPin (controlFan (F32.of_Z 90) setup) = HIGH ->
      relayPin (run [F32.of_Z 84; F32.of_Z 80; F32.of_Z 96; F32.of_Z 81]
                  (controlFan (F32.of_Z 90) setup)) = HIGH).
Proof.
  assert (Hall : Forall (fun temp =>
            F32.lt temp (F32.sub TEMP_FAN_ON TEMP_HYSTERESIS) = false)
         [F32.of_Z 84; F32.of_Z 80; F32.of_Z 96; F32.of_Z 81])
    by (repeat constructor).
  split; [exact Hall|]. split; [reflexivity|].
  exact (X9_fan_stays_on _ (controlFan (F32.of_Z 90) setup) Hall eq_refl).
Defined.

(** X10.  Once off, the fan stays off until a temperature reaches
    [TEMP_FAN_ON]: if every temperature of the run fails
    [temp >= TEMP_FAN_ON] and [fanActive] was false, it is still false at
    the end, every duty written is 0, and a relay that was LOW stays
    LOW. *)
Theorem X10_fan_stays_off (temps : list F32.float) (s : board) :
  Forall (fun temp => F32.ge temp TEMP_FAN_ON = false) temps ->
  fanActive s = false ->
  fanActive (run temps s) = false
  /\ Forall (fun duty => duty = 0) (drives temps s)
  /\ (relayPin s = LOW -> relayPin (run temps s) = LOW).
Proof.
  intros Hall. revert s.
  induction Hall as [|temp temps Hon _ IH]; intros s Hs.
  - split; [exact Hs|]. split; [constructor|auto].
  - cbn [run drives].
    assert (Hstep : fanActive (controlFan temp s) = false
                    /\ pwmPin (controlFan temp s) = 0
                    /\ (relayPin s = LOW ->
                        relayPin (controlFan temp s) = LOW)).
    { destruct (controlFan_cases temp s)
        as [[Hmax _]|[(Hon' & _ & _)|[[_ ->]| ->]]];
        cbn [fanActive pwmPin relayPin].
      - rewrite (ge_max_ge_on temp Hmax) in Hon. discriminate.
      - congruence.
      - repeat split.
      - rewrite Hs. repeat split. auto. }
    destruct Hstep as (Hf & Hd & Hr).
    destruct (IH (controlFan temp s) Hf) as (Hf' & Hd' & Hr').
    split; [exact Hf'|]. split; [constructor; assumption|auto].
Qed.

Lemma X10_fan_stays_off_witness :
  Forall (fun temp => F32.ge temp TEMP_FAN_ON = false)
         [F32.of_Z 84; F32.of_Z 70; S754_nan; F32.of_Z 83]
  /\ fanActive setup = false
  /\ fanActive (run [F32.of_Z 84; F32.of_Z 70; S754_nan; F32.of_Z 83] setup)
     = false
  /\ Forall (fun duty => duty = 0)
       (drives [F32.of_Z 84; F32.of_Z 70; S754_nan; F32.of_Z 83] setup)
  /\ (relayPin setup = LOW ->
      relayPin (run [F32.of_Z 84; F32.of_Z 70; S754_nan; F32.of_Z 83] setup)
      = LOW).
Proof.
  assert (Hall : Forall (fun temp => F32.ge temp TEMP_FAN_ON = false)
         [F32.of_Z 84; F32.of_Z 70; S754_nan; F32.of_Z 83])
    by (repeat constructor).
  split; [exact Hall|]. split; [reflexivity|].
  exact (X10_fan_stays_off _ setup Hall eq_refl).
Defined.

(** X11.  [fanActive] is a set/reset latch: after any run it is what the
    last deciding temperature made it (true if that one was at or above
    [TEMP_FAN_ON], false if it was below
    [TEMP_FAN_ON - TEMP_HYSTERESIS]), and its initial value if none
    decided; the full-speed threshold plays no part. *)
Theorem X11_fanActive_is_a_latch (temps : list F32.float) (s : board) :
  fanActive (run temps s) = fold_left latch temps (fanActive s).
Proof.
  revert s. induction temps as [|temp temps IH]; intros s.
  - reflexivity.
  - cbn [run fold_left]. rewrite IH, fanActive_latch. reflexivity.
Qed.

(** X12.  [printStatus] prints a percentage only while [fanActive] is
    true, and that number is the count read back on the PWM pin scaled by
    100/255, whatever duty was written: for a 10-bit count it lies between
    0 and 401, and is at most 100 only for counts up to 257.  The product
    [count * 100] does not overflow. *)
Theorem X12_printStatus_percentage (pwmRead : Z) (st : sketch) (n : Z) :
  0 <= pwmRead <= 1023 ->
  (In (print_int n) (printStatus pwmRead st)
   <-> fanActive (pins st) = true /\ n = pwmRead * 100 / 255)
  /\ 0 <= pwmRead * 100 / 255 <= 401
  /\ (pwmRead * 100 / 255 <= 100 <-> pwmRead <= 257).
Proof.
  intros Hr. split; [|split].
  - unfold printStatus. rewrite (map_percent pwmRead Hr).
    destruct (fanActive (pins st)); cbn [app In]; split.
    + intros [H|[H|[H|[H|[H|[H|[]]]]]]]; try discriminate H.
      injection H as <-. split; reflexivity.
    + intros [_ ->]. do 4 right. left. reflexivity.
    + intros [H|[H|[H|[H|[]]]]]; discriminate H.
    + intros [H _]. discriminate H.
  - split; [apply Z.div_pos; lia|].
    apply Z.lt_succ_r. apply Z.div_lt_upper_bound; lia.
  - split; intros H.
    + destruct (Z.le_gt_cases pwmRead 257) as [Hle|Hgt]; [exact Hle|].
      exfalso.
      assert (101 <= pwmRead * 100 / 255)
        by (apply Z.div_le_lower_bound; lia).
      lia.
    + apply Z.lt_succ_r. apply Z.div_lt_upper_bound; lia.
Qed.

Lemma X12_printStatus_percentage_witness :
  0 <= 1023 <= 1023
  /\ (In (print_int 401)
        (printStatus 1023 (mkSketch (mkBoard true HIGH 100) (F32.of_Z 83)))
      <-> fanActive (pins (mkSketch (mkBoard true HIGH 100) (F32.of_Z 83)))
          = true
          /\ 401 = 1023 * 100 / 255)
  /\ 0 <= 1023 * 100 / 255 <= 401
  /\ (1023 * 100 / 255 <= 100 <-> 1023 <= 257).
Proof.
  split; [lia|].
  apply (X12_printStatus_percentage 1023
           (mkSketch (mkBoard true HIGH 100) (F32.of_Z 83)) 401).
  lia.
Defined.

(** X13.  Whatever the ADC returns, after any number of passes of [loop]
    from the initial state the board is consistent: the relay is HIGH
    exactly when [fanActive] is true, which is exactly when the duty on the
    PWM pin is non-zero, and that duty is 0 or within
    [[PWM_MIN, PWM_MAX]]. *)
Theorem X13_loop_keeps_board_consistent (reads : list (Z * Z)) :
  let s := pins (loops reads sketch_setup) in
  (relayPin s = HIGH <-> fanActive s = true)
  /\ (fanActive s = true <-> pwmPin s <> 0)
  /\ (pwmPin s = 0 \/ PWM_MIN <= pwmPin s <= PWM_MAX).
Proof.
  intros s.
  assert (Hs : reachable s) by (apply loops_reachable, reach_setup).
  pose proof (reachable_coupled s Hs) as Hc. unfold coupled in Hc.
  destruct (reachable_on_or_off s Hs) as [[Hf Hd]|[Hf Hd]];
    rewrite Hf in Hc; rewrite Hc, Hf.
  - unfold PWM_MIN in *.
    repeat split; try reflexivity; try discriminate; try lia;
      intros; (lia || reflexivity || auto).
  - rewrite Hd.
    repeat split; try discriminate; try lia; try (intros H; now elim H);
      auto.
Qed.
